(** * dng_sdk.py: the gyp build descriptor of the dng_sdk target

    A shallow embedding of [source/lib/dng_sdk/dng_sdk.py].  The script is a
    sequence of top-level statements: it binds the global
    [gyp_build_object] to a dict literal (lines 10-174), parses the
    [--modules] option with [argparse] (lines 176-180), appends two feature
    defines to [gyp_build_object['targets'][0]['defines']] (lines 182-190)
    and prints the object (line 192).

    Python objects are modelled as a tree of strings, lists and
    insertion-ordered dicts.  Every container of the script is created by a
    literal and is reachable through its parent only, so there is no
    aliasing and an in-place [append] is an update along the access path.
    Statements are computations in a state-and-exception monad whose state
    holds the global [gyp_build_object] and what was printed.

    Not modelled: lines 4-8 (the [sys.path] bootstrap and
    [from commonlib import *]); no name they bind is read before the
    script rebinds it.  The tokenisation of [sys.argv] by [argparse] is
    abstracted to the raw value handed to [--modules], if any; what
    [default=] and [choices=] decide is modelled. *)

From Stdlib Require Import String Ascii List ZArith Bool Lia.
Import ListNotations.
Open Scope string_scope.
Open Scope list_scope.

#[local] Set Warnings "-register-all".

(** ** Python objects *)

Inductive value : Type :=
| Str (s : string)
| Lst (items : list value)
| Dict (entries : list (string * value)).

(** A subscript [o[k]] with a string key or [o[i]] with an index. *)
Inductive subscript : Type :=
| Key (k : string)
| Idx (i : nat).

Inductive exn : Type :=
| KeyError (k : subscript)
| IndexError
| TypeError
| AttributeError
| NameError (name : string)
| SystemExit (code : Z).

Inductive outcome (A : Type) : Type :=
| Return (a : A)
| Raise (e : exn).
Arguments Return {A} a.
Arguments Raise {A} e.

Module Py.

(** [d[k]] on the entries of a dict: the value bound to [k], if any. *)
Fixpoint dict_get (k : string) (d : list (string * value)) : option value :=
  match d with
  | [] => None
  | (k', v) :: d' => if String.eqb k k' then Some v else dict_get k d'
  end.

(** [d[k] = v]: a bound key keeps its position, a new key goes last. *)
Fixpoint dict_set (k : string) (v : value) (d : list (string * value))
  : list (string * value) :=
  match d with
  | [] => [(k, v)]
  | (k', v') :: d' =>
      if String.eqb k k' then (k', v) :: d' else (k', v') :: dict_set k v d'
  end.

(** [l[i] = v] for an index in range; out of range is caught by the read
    that precedes every write below. *)
Fixpoint list_set (i : nat) (v : value) (l : list value) : list value :=
  match l, i with
  | [], _ => []
  | _ :: l', O => v :: l'
  | x :: l', S i' => x :: list_set i' v l'
  end.

Definition char_at (i : nat) (s : string) : option value :=
  match String.get i s with
  | Some c => Some (Str (String c EmptyString))
  | None => None
  end.

(** [o[s]]: dicts raise [KeyError] on a missing key (an index is never a
    key of these string-keyed dicts), lists and strings raise [TypeError]
    on a string subscript and [IndexError] out of range. *)
Definition getitem (o : value) (s : subscript) : outcome value :=
  match o, s with
  | Dict d, Key k =>
      match dict_get k d with Some v => Return v | None => Raise (KeyError s) end
  | Dict _, Idx _ => Raise (KeyError s)
  | Lst l, Idx i =>
      match nth_error l i with Some v => Return v | None => Raise IndexError end
  | Lst _, Key _ => Raise TypeError
  | Str x, Idx i =>
      match char_at i x with Some v => Return v | None => Raise IndexError end
  | Str _, Key _ => Raise TypeError
  end.

(** Puts the updated child back under the subscript it was read from. *)
Definition setitem (o : value) (s : subscript) (child : value) : value :=
  match o, s with
  | Dict d, Key k => Dict (dict_set k child d)
  | Lst l, Idx i => Lst (list_set i child l)
  | _, _ => o
  end.

(** [o.append(x)]: only lists have the method. *)
Definition append (o : value) (x : value) : outcome value :=
  match o with
  | Lst l => Return (Lst (l ++ [x]))
  | _ => Raise AttributeError
  end.

(** [o[s1]...[sn]]: the object reached from [o] along [path]. *)
Fixpoint lookup (path : list subscript) (o : value) : outcome value :=
  match path with
  | [] => Return o
  | s :: path' =>
      match getitem o s with
      | Return child => lookup path' child
      | Raise e => Raise e
      end
  end.

(** [o[s1]...[sn].append(x)]: the subscripts are evaluated left to right,
    the list they reach is extended in place, and [o] afterwards shows the
    extended list at the same place. *)
Fixpoint append_at (path : list subscript) (x : value) (o : value)
  : outcome value :=
  match path with
  | [] => append o x
  | s :: path' =>
      match getitem o s with
      | Return child =>
          match append_at path' x child with
          | Return child' => Return (setitem o s child')
          | Raise e => Raise e
          end
      | Raise e => Raise e
      end
  end.

End Py.

(** ** Program state and statements *)

Record state : Type := mkState {
  gyp_build_object : option value;   (* the global; [None] while unbound *)
  stdout : list value                (* the objects printed so far *)
}.

Definition M (A : Type) : Type := state -> outcome A * state.

Definition ret {A} (a : A) : M A := fun st => (Return a, st).

Definition raise {A} (e : exn) : M A := fun st => (Raise e, st).

Definition bind {A B} (m : M A) (k : A -> M B) : M B :=
  fun st =>
    match m st with
    | (Return a, st') => k a st'
    | (Raise e, st') => (Raise e, st')
    end.

Notation "x <- c1 ;; c2" := (bind c1 (fun x => c2))
  (at level 61, c1 at next level, right associativity).
Notation "c1 ;; c2" := (bind c1 (fun _ => c2))
  (at level 61, right associativity).

(** ** The descriptor catalog (lines 10-174) *)

Definition baseline_defines : list value :=
  [ Str "<@(default_defines)"; Str "qDNGXMPFiles=0"; Str "qDNGXMPDocOps=0" ].

Definition sources : list value :=
  [
      Str "./dng_validate.cpp";
      Str "./dng_1d_function.cpp";
      Str "./dng_1d_function.h";
      Str "./dng_1d_table.cpp";
      Str "./dng_1d_table.h";
      Str "./dng_abort_sniffer.cpp";
      Str "./dng_abort_sniffer.h";
      Str "./dng_area_task.cpp";
      Str "./dng_area_task.h";
      Str "./dng_assertions.h";
      Str "./dng_auto_ptr.h";
      Str "./dng_bad_pixels.cpp";
      Str "./dng_bad_pixels.h";
      Str "./dng_bottlenecks.cpp";
      Str "./dng_bottlenecks.h";
      Str "./dng_camera_profile.cpp";
      Str "./dng_camera_profile.h";
      Str "./dng_classes.h";
      Str "./dng_color_space.cpp";
      Str "./dng_color_space.h";
      Str "./dng_color_spec.cpp";
      Str "./dng_color_spec.h";
      Str "./dng_date_time.cpp";
      Str "./dng_date_time.h";
      Str "./dng_errors.h";
      Str "./dng_exceptions.cpp";
      Str "./dng_exceptions.h";
      Str "./dng_exif.cpp";
      Str "./dng_exif.h";
      Str "./dng_fast_module.h";
      Str "./dng_file_stream.cpp";
      Str "./dng_file_stream.h";
      Str "./dng_filter_task.cpp";
      Str "./dng_filter_task.h";
      Str "./dng_fingerprint.cpp";
      Str "./dng_fingerprint.h";
      Str "./dng_flags.h";
      Str "./dng_gain_map.cpp";
      Str "./dng_gain_map.h";
      Str "./dng_globals.cpp";
      Str "./dng_globals.h";
      Str "./dng_host.cpp";
      Str "./dng_host.h";
      Str "./dng_hue_sat_map.cpp";
      Str "./dng_hue_sat_map.h";
      Str "./dng_ifd.cpp";
      Str "./dng_ifd.h";
      Str "./dng_image.cpp";
      Str "./dng_image.h";
      Str "./dng_image_writer.cpp";
      Str "./dng_image_writer.h";
      Str "./dng_info.cpp";
      Str "./dng_info.h";
      Str "./dng_iptc.cpp";
      Str "./dng_iptc.h";
      Str "./dng_jpeg_image.cpp";
      Str "./dng_jpeg_image.h";
      Str "./dng_lens_correction.cpp";
      Str "./dng_lens_correction.h";
      Str "./dng_linearization_info.cpp";
      Str "./dng_linearization_info.h";
      Str "./dng_lossless_jpeg.cpp";
      Str "./dng_lossless_jpeg.h";
      Str "./dng_matrix.cpp";
      Str "./dng_matrix.h";
      Str "./dng_memory.cpp";
      Str "./dng_memory.h";
      Str "./dng_memory_stream.cpp";
      Str "./dng_memory_stream.h";
      Str "./dng_misc_opcodes.cpp";
      Str "./dng_misc_opcodes.h";
      Str "./dng_mosaic_info.cpp";
      Str "./dng_mosaic_info.h";
      Str "./dng_mutex.cpp";
      Str "./dng_mutex.h";
      Str "./dng_negative.cpp";
      Str "./dng_negative.h";
      Str "./dng_opcode_list.cpp";
      Str "./dng_opcode_list.h";
      Str "./dng_opcodes.cpp";
      Str "./dng_opcodes.h";
      Str "./dng_orientation.cpp";
      Str "./dng_orientation.h";
      Str "./dng_parse_utils.cpp";
      Str "./dng_parse_utils.h";
      Str "./dng_pixel_buffer.cpp";
      Str "./dng_pixel_buffer.h";
      Str "./dng_point.cpp";
      Str "./dng_point.h";
      Str "./dng_preview.cpp";
      Str "./dng_preview.h";
      Str "./dng_pthread.cpp";
      Str "./dng_pthread.h";
      Str "./dng_rational.cpp";
      Str "./dng_rational.h";
      Str "./dng_read_image.cpp";
      Str "./dng_read_image.h";
      Str "./dng_rect.cpp";
      Str "./dng_rect.h";
      Str "./dng_ref_counted_block.cpp";
      Str "./dng_ref_counted_block.h";
      Str "./dng_reference.cpp";
      Str "./dng_reference.h";
      Str "./dng_render.cpp";
      Str "./dng_render.h";
      Str "./dng_resample.cpp";
      Str "./dng_resample.h";
      Str "./dng_sdk_limits.h";
      Str "./dng_shared.cpp";
      Str "./dng_shared.h";
      Str "./dng_simple_image.cpp";
      Str "./dng_simple_image.h";
      Str "./dng_spline.cpp";
      Str "./dng_spline.h";
      Str "./dng_stream.cpp";
      Str "./dng_stream.h";
      Str "./dng_string.cpp";
      Str "./dng_string.h";
      Str "./dng_string_list.cpp";
      Str "./dng_string_list.h";
      Str "./dng_tag_codes.h";
      Str "./dng_tag_types.cpp";
      Str "./dng_tag_types.h";
      Str "./dng_tag_values.h";
      Str "./dng_temperature.cpp";
      Str "./dng_temperature.h";
      Str "./dng_tile_iterator.cpp";
      Str "./dng_tile_iterator.h";
      Str "./dng_tone_curve.cpp";
      Str "./dng_tone_curve.h";
      Str "./dng_types.h";
      Str "./dng_uncopyable.h";
      Str "./dng_utils.cpp";
      Str "./dng_utils.h";
      Str "./dng_xmp.cpp";
      Str "./dng_xmp.h";
      Str "./dng_xmp_sdk.cpp";
      Str "./dng_xmp_sdk.h";
      Str "./dng_xy_coord.cpp";
      Str "./dng_xy_coord.h"
  ].

Definition dng_sdk_target_fields : list (string * value) :=
  [ ("target_name", Str "dng_sdk");
    ("type", Str "static_library");
    ("include_dirs", Lst []);
    ("defines", Lst baseline_defines);
    ("includes", Lst [ Str "../xmp_sdk/xmp_sdk.gypi" ]);
    ("sources", Lst sources) ].

Definition dng_sdk_target : value := Dict dng_sdk_target_fields.

Definition gyp_build_object_entries : list (string * value) :=
  [ ("targets", Lst [ dng_sdk_target ]) ].

(** The dict literal of line 10. *)
Definition gyp_build_object_literal : value := Dict gyp_build_object_entries.

(** [gyp_build_object = { ... }] *)
Definition assign_gyp_build_object (v : value) : M unit :=
  fun st => (Return tt, mkState (Some v) (stdout st)).

(** ** The input boundary (lines 176-180) *)

Record Action : Type := mkAction {
  option_strings : list string;
  dest : string;
  default : string;
  help : string;
  choices : list string
}.

(** [parser.add_argument('-m', '--modules', default="all", help=...,
    choices=["gpr_encoding", "gpr_decoding", "all"])] *)
Definition modules_action : Action :=
  {| option_strings := [ "-m"; "--modules" ];
     dest := "modules";
     default := "all";
     help := "Modules to include in build step";
     choices := [ "gpr_encoding"; "gpr_decoding"; "all" ] |}.

Record Namespace : Type := mkNamespace { modules : string }.

(** [value not in action.choices] makes argparse report a usage error and
    exit with status 2. *)
Definition check_value (a : Action) (v : string) : M string :=
  if existsb (String.eqb v) (choices a) then ret v else raise (SystemExit 2).

(** [parser.parse_args()], on the raw value given to [--modules]: [None]
    when the option is absent, and then the default is taken as it is. *)
Definition parse_args (cmdline : option string) : M Namespace :=
  match cmdline with
  | None => ret (mkNamespace (default modules_action))
  | Some raw => v <- check_value modules_action raw ;; ret (mkNamespace v)
  end.

(** ** The feature resolver (lines 182-190) *)

Definition defines_path : list subscript :=
  [ Key "targets"; Idx 0; Key "defines" ].

(** [gyp_build_object['targets'][0]['defines'].append(x)] *)
Definition defines_append (x : string) : M unit :=
  fun st =>
    match gyp_build_object st with
    | None => (Raise (NameError "gyp_build_object"), st)
    | Some o =>
        match Py.append_at defines_path (Str x) o with
        | Return o' => (Return tt, mkState (Some o') (stdout st))
        | Raise e => (Raise e, st)
        end
    end.

(** Lines 182-185. *)
Definition resolve_encoding (args : Namespace) : M unit :=
  if String.eqb (modules args) "gpr_encoding" || String.eqb (modules args) "all"
  then defines_append "ENABLE_GPR_ENCODING=1"
  else defines_append "ENABLE_GPR_ENCODING=0".

(** Lines 187-190. *)
Definition resolve_decoding (args : Namespace) : M unit :=
  if String.eqb (modules args) "gpr_decoding" || String.eqb (modules args) "all"
  then defines_append "ENABLE_GPR_DECODING=1"
  else defines_append "ENABLE_GPR_DECODING=0".

Definition resolve (args : Namespace) : M unit :=
  resolve_encoding args ;; resolve_decoding args.

(** [print( gyp_build_object )] *)
Definition print_gyp_build_object : M unit :=
  fun st =>
    match gyp_build_object st with
    | None => (Raise (NameError "gyp_build_object"), st)
    | Some o => (Return tt, mkState (Some o) (stdout st ++ [o]))
    end.

(** ** The script *)

Definition script (cmdline : option string) : M unit :=
  assign_gyp_build_object gyp_build_object_literal ;;
  args <- parse_args cmdline ;;
  resolve args ;;
  print_gyp_build_object.

(** ** Observations used to state the properties *)

(** The list at [o['targets'][0]['defines']], when there is one. *)
Definition descriptor_defines (o : value) : option (list value) :=
  match Py.lookup defines_path o with
  | Return (Lst defs) => Some defs
  | _ => None
  end.

Definition state_defines (st : state) : option (list value) :=
  match gyp_build_object st with
  | Some o => descriptor_defines o
  | None => None
  end.

(** [o['targets'][0][k]] *)
Definition target_field (k : string) (o : value) : outcome value :=
  Py.lookup [ Key "targets"; Idx 0; Key k ] o.

(** The key of a [KEY=value] define: what precedes the first [=]. *)
Fixpoint define_key (s : string) : string :=
  match s with
  | EmptyString => EmptyString
  | String c s' => if Ascii.eqb c "="%char then EmptyString
                   else String c (define_key s')
  end.

Definition has_key (k : string) (v : value) : bool :=
  match v with
  | Str s => String.eqb (define_key s) k
  | _ => false
  end.

(** How many defines of [defs] carry the key [k]. *)
Definition count_key (k : string) (defs : list value) : nat :=
  length (filter (has_key k) defs).

(** A module selection the input boundary lets through. *)
Definition valid_selection (s : string) : Prop :=
  In s (choices modules_action).

(** What the input boundary lets through: no [--modules] at all, or a valid
    selection. *)
Definition accepted (cmdline : option string) : Prop :=
  match cmdline with
  | None => True
  | Some s => valid_selection s
  end.

(** The state after a run from [st0] that built and printed [o]. *)
Definition printed (st0 : state) (o : value) : state :=
  mkState (Some o) (stdout st0 ++ [o]).

(** The state a fresh process starts in. *)
Definition initial_state : state := mkState None [].

(** The state line 10 leaves behind: the catalog bound, nothing printed. *)
Definition catalog_state : state := mkState (Some gyp_build_object_literal) [].

(** The catalog with [defs] in place of the baseline defines. *)
Definition descriptor_with (defs : list value) : value :=
  Dict [ ("targets",
          Lst [ Dict [ ("target_name", Str "dng_sdk");
                       ("type", Str "static_library");
                       ("include_dirs", Lst []);
                       ("defines", Lst defs);
                       ("includes", Lst [ Str "../xmp_sdk/xmp_sdk.gypi" ]);
                       ("sources", Lst sources) ] ]) ].

(** A descriptor with [defs'] written over the defines of
    [entries['targets'][0]], everything else as it was. *)
Definition with_defines (entries tfields : list (string * value))
  (rest : list value) (defs' : list value) : value :=
  Dict (Py.dict_set "targets"
          (Lst (Dict (Py.dict_set "defines" (Lst defs') tfields) :: rest))
          entries).

(** ** Dicts *)

Section DictLemmas.

Variables (k : string) (v : value).

Lemma dict_get_set_same d : Py.dict_get k (Py.dict_set k v d) = Some v.
Proof.
  induction d as [| [k' v'] d IH]; simpl.
  - now rewrite String.eqb_refl.
  - destruct (String.eqb k k') eqn:E; simpl; rewrite E; auto.
Qed.

Lemma dict_get_set_other k0 d :
  k0 <> k -> Py.dict_get k0 (Py.dict_set k v d) = Py.dict_get k0 d.
Proof.
  intros Hne. induction d as [| [k' v'] d IH]; simpl.
  - apply String.eqb_neq in Hne. now rewrite Hne.
  - destruct (String.eqb k k') eqn:E; simpl.
    + apply String.eqb_eq in E. subst k'.
      apply String.eqb_neq in Hne. now rewrite Hne.
    + now rewrite IH.
Qed.

(** Writing a bound key keeps the keys and their order. *)
Lemma dict_set_keys d w :
  Py.dict_get k d = Some w -> map fst (Py.dict_set k v d) = map fst d.
Proof.
  induction d as [| [k' v'] d IH]; simpl; [discriminate |].
  destruct (String.eqb k k'); simpl; intros H; [reflexivity |].
  now rewrite IH.
Qed.

Lemma dict_set_set d v0 :
  Py.dict_set k v (Py.dict_set k v0 d) = Py.dict_set k v d.
Proof.
  induction d as [| [k' v'] d IH]; simpl.
  - now rewrite String.eqb_refl.
  - destruct (String.eqb k k') eqn:E; simpl; rewrite E; [reflexivity |].
    now rewrite IH.
Qed.

End DictLemmas.

(** ** The append along the defines path *)

(** A descriptor has a defines list exactly when it is a dict whose
    ['targets'] is a list headed by a dict whose ['defines'] is a list. *)
Lemma descriptor_defines_shape o defs :
  descriptor_defines o = Some defs ->
  exists entries tfields rest,
    o = Dict entries /\
    Py.dict_get "targets" entries = Some (Lst (Dict tfields :: rest)) /\
    Py.dict_get "defines" tfields = Some (Lst defs).
Proof.
  unfold descriptor_defines, defines_path. simpl.
  destruct o as [x | l | entries]; simpl; try discriminate.
  destruct (Py.dict_get "targets" entries) as [ts |] eqn:Ets; try discriminate.
  destruct ts as [x | [| t rest] | d]; simpl; try discriminate.
  - destruct x; simpl; discriminate.
  - destruct t as [x | l | tfields]; simpl; try discriminate.
    destruct (Py.dict_get "defines" tfields) as [ds |] eqn:Eds; try discriminate.
    destruct ds as [x | ds | d]; try discriminate.
    intros H. injection H as <-.
    exists entries, tfields, rest. auto.
Qed.

Lemma with_defines_defines entries tfields rest defs' :
  descriptor_defines (with_defines entries tfields rest defs') = Some defs'.
Proof.
  unfold descriptor_defines, with_defines, defines_path. simpl.
  rewrite dict_get_set_same. simpl. now rewrite dict_get_set_same.
Qed.

Lemma with_defines_again entries tfields rest defs0 defs' :
  with_defines
    (Py.dict_set "targets"
       (Lst (Dict (Py.dict_set "defines" (Lst defs0) tfields) :: rest)) entries)
    (Py.dict_set "defines" (Lst defs0) tfields) rest defs'
  = with_defines entries tfields rest defs'.
Proof. unfold with_defines. now rewrite !dict_set_set. Qed.

Lemma defines_append_spec x st entries tfields rest defs :
  gyp_build_object st = Some (Dict entries) ->
  Py.dict_get "targets" entries = Some (Lst (Dict tfields :: rest)) ->
  Py.dict_get "defines" tfields = Some (Lst defs) ->
  defines_append x st =
    (Return tt,
     mkState (Some (with_defines entries tfields rest (defs ++ [Str x])))
             (stdout st)).
Proof.
  intros Ho Ht Hd. unfold defines_append, defines_path. rewrite Ho. simpl.
  rewrite Ht. simpl. rewrite Hd. reflexivity.
Qed.

(** Appending to a state that has a defines list extends that list. *)
Lemma defines_append_defines x st defs :
  state_defines st = Some defs ->
  exists st',
    defines_append x st = (Return tt, st') /\
    state_defines st' = Some (defs ++ [Str x]) /\
    stdout st' = stdout st.
Proof.
  unfold state_defines. destruct (gyp_build_object st) as [o |] eqn:Eo;
    [| discriminate].
  intros H. apply descriptor_defines_shape in H.
  destruct H as (entries & tfields & rest & -> & Ht & Hd).
  eexists. split; [eapply defines_append_spec; eauto |].
  split; [| reflexivity]. simpl. apply with_defines_defines.
Qed.

(** ** The selection values *)

Lemma valid_selection_cases s :
  valid_selection s <-> s = "gpr_encoding" \/ s = "gpr_decoding" \/ s = "all".
Proof.
  unfold valid_selection. simpl. split.
  - intros [H | [H | [H | []]]]; auto.
  - intros [H | [H | H]]; auto.
Qed.


Lemma check_value_rejects s st :
  ~ valid_selection s ->
  check_value modules_action s st = (Raise (SystemExit 2), st).
Proof.
  intros H. unfold check_value.
  destruct (existsb (String.eqb s) (choices modules_action)) eqn:E;
    [| reflexivity].
  exfalso. apply H. apply existsb_exists in E. destruct E as (c & Hin & Heq).
  apply String.eqb_eq in Heq. now subst c.
Qed.

(** The two conditions of lines 182 and 187, as propositions. *)
Lemma encoding_condition s :
  String.eqb s "gpr_encoding" || String.eqb s "all" = true <->
  s = "gpr_encoding" \/ s = "all".
Proof. rewrite orb_true_iff, !String.eqb_eq. tauto. Qed.

Lemma decoding_condition s :
  String.eqb s "gpr_decoding" || String.eqb s "all" = true <->
  s = "gpr_decoding" \/ s = "all".
Proof. rewrite orb_true_iff, !String.eqb_eq. tauto. Qed.

(** ** The feature defines *)

(** C1. For every valid module selection, lines 182-185 append one define
    to the defines list: [ENABLE_GPR_ENCODING=1] when the selection is
    ["gpr_encoding"] or ["all"], and [ENABLE_GPR_ENCODING=0] otherwise,
    which among the valid selections is ["gpr_decoding"]. *)
Theorem resolve_encoding_appends (s : string) (st : state) (defs : list value) :
  valid_selection s ->
  state_defines st = Some defs ->
  exists st',
    resolve_encoding (mkNamespace s) st = (Return tt, st') /\
    (s = "gpr_encoding" \/ s = "all" ->
       state_defines st' = Some (defs ++ [ Str "ENABLE_GPR_ENCODING=1" ])) /\
    (~ (s = "gpr_encoding" \/ s = "all") ->
       s = "gpr_decoding" /\
       state_defines st' = Some (defs ++ [ Str "ENABLE_GPR_ENCODING=0" ])).
Proof.
  intros Hv Hd. unfold resolve_encoding. simpl.
  destruct (String.eqb s "gpr_encoding" || String.eqb s "all") eqn:E.
  - apply encoding_condition in E.
    destruct (defines_append_defines "ENABLE_GPR_ENCODING=1" st defs Hd)
      as (st' & Hrun & Hdefs & _).
    exists st'. split; [exact Hrun |]. split; [intros _; exact Hdefs |].
    intros Hn. contradiction.
  - assert (Hn : ~ (s = "gpr_encoding" \/ s = "all")).
    { intros H. apply encoding_condition in H. congruence. }
    destruct (defines_append_defines "ENABLE_GPR_ENCODING=0" st defs Hd)
      as (st' & Hrun & Hdefs & _).
    exists st'. split; [exact Hrun |]. split; [tauto |].
    intros _. split; [| exact Hdefs].
    apply valid_selection_cases in Hv. tauto.
Qed.

Lemma resolve_encoding_appends_witness :
  valid_selection "gpr_decoding" /\
  state_defines catalog_state = Some baseline_defines /\
  exists st',
    resolve_encoding (mkNamespace "gpr_decoding") catalog_state
      = (Return tt, st') /\
    ("gpr_decoding" = "gpr_encoding" \/ "gpr_decoding" = "all" ->
       state_defines st'
         = Some (baseline_defines ++ [ Str "ENABLE_GPR_ENCODING=1" ])) /\
    (~ ("gpr_decoding" = "gpr_encoding" \/ "gpr_decoding" = "all") ->
       "gpr_decoding" = "gpr_decoding" /\
       state_defines st'
         = Some (baseline_defines ++ [ Str "ENABLE_GPR_ENCODING=0" ])).
Proof.
  split; [unfold valid_selection; simpl; tauto |]. split; [reflexivity |].
  apply (resolve_encoding_appends "gpr_decoding" catalog_state baseline_defines);
    [unfold valid_selection; simpl; tauto | reflexivity].
Defined.

(** C2. For every valid module selection, lines 187-190 append one define
    to the defines list: [ENABLE_GPR_DECODING=1] when the selection is
    ["gpr_decoding"] or ["all"], and [ENABLE_GPR_DECODING=0] otherwise,
    which among the valid selections is ["gpr_encoding"]. *)
Theorem resolve_decoding_appends (s : string) (st : state) (defs : list value) :
  valid_selection s ->
  state_defines st = Some defs ->
  exists st',
    resolve_decoding (mkNamespace s) st = (Return tt, st') /\
    (s = "gpr_decoding" \/ s = "all" ->
       state_defines st' = Some (defs ++ [ Str "ENABLE_GPR_DECODING=1" ])) /\
    (~ (s = "gpr_decoding" \/ s = "all") ->
       s = "gpr_encoding" /\
       state_defines st' = Some (defs ++ [ Str "ENABLE_GPR_DECODING=0" ])).
Proof.
  intros Hv Hd. unfold resolve_decoding. simpl.
  destruct (String.eqb s "gpr_decoding" || String.eqb s "all") eqn:E.
  - apply decoding_condition in E.
    destruct (defines_append_defines "ENABLE_GPR_DECODING=1" st defs Hd)
      as (st' & Hrun & Hdefs & _).
    exists st'. split; [exact Hrun |]. split; [intros _; exact Hdefs |].
    intros Hn. contradiction.
  - assert (Hn : ~ (s = "gpr_decoding" \/ s = "all")).
    { intros H. apply decoding_condition in H. congruence. }
    destruct (defines_append_defines "ENABLE_GPR_DECODING=0" st defs Hd)
      as (st' & Hrun & Hdefs & _).
    exists st'. split; [exact Hrun |]. split; [tauto |].
    intros _. split; [| exact Hdefs].
    apply valid_selection_cases in Hv. tauto.
Qed.

Lemma resolve_decoding_appends_witness :
  valid_selection "gpr_encoding" /\
  state_defines catalog_state = Some baseline_defines /\
  exists st',
    resolve_decoding (mkNamespace "gpr_encoding") catalog_state
      = (Return tt, st') /\
    ("gpr_encoding" = "gpr_decoding" \/ "gpr_encoding" = "all" ->
       state_defines st'
         = Some (baseline_defines ++ [ Str "ENABLE_GPR_DECODING=1" ])) /\
    (~ ("gpr_encoding" = "gpr_decoding" \/ "gpr_encoding" = "all") ->
       "gpr_encoding" = "gpr_encoding" /\
       state_defines st'
         = Some (baseline_defines ++ [ Str "ENABLE_GPR_DECODING=0" ])).
Proof.
  split; [unfold valid_selection; simpl; tauto |]. split; [reflexivity |].
  apply (resolve_decoding_appends "gpr_encoding" catalog_state baseline_defines);
    [unfold valid_selection; simpl; tauto | reflexivity].
Defined.

(** ** Runs of the script *)

Lemma script_all st0 :
  script (Some "all") st0 =
    (Return tt,
     printed st0 (descriptor_with
       (baseline_defines ++
          [ Str "ENABLE_GPR_ENCODING=1"; Str "ENABLE_GPR_DECODING=1" ]))).
Proof. reflexivity. Qed.

Lemma script_gpr_encoding st0 :
  script (Some "gpr_encoding") st0 =
    (Return tt,
     printed st0 (descriptor_with
       (baseline_defines ++
          [ Str "ENABLE_GPR_ENCODING=1"; Str "ENABLE_GPR_DECODING=0" ]))).
Proof. reflexivity. Qed.

Lemma script_gpr_decoding st0 :
  script (Some "gpr_decoding") st0 =
    (Return tt,
     printed st0 (descriptor_with
       (baseline_defines ++
          [ Str "ENABLE_GPR_ENCODING=0"; Str "ENABLE_GPR_DECODING=1" ]))).
Proof. reflexivity. Qed.

Lemma script_no_option st0 : script None st0 = script (Some "all") st0.
Proof. reflexivity. Qed.

(** Every accepted run prints the catalog with one pair of defines added;
    the pair is one of three. *)
Lemma script_accepted cmdline st0 :
  accepted cmdline ->
  exists e d,
    script cmdline st0 =
      (Return tt,
       printed st0 (descriptor_with (baseline_defines ++ [ Str e; Str d ]))) /\
    (e = "ENABLE_GPR_ENCODING=1" \/ e = "ENABLE_GPR_ENCODING=0") /\
    (d = "ENABLE_GPR_DECODING=1" \/ d = "ENABLE_GPR_DECODING=0") /\
    ~ (e = "ENABLE_GPR_ENCODING=0" /\ d = "ENABLE_GPR_DECODING=0").
Proof.
  assert (Hne : "ENABLE_GPR_ENCODING=1" <> "ENABLE_GPR_ENCODING=0")
    by discriminate.
  assert (Hnd : "ENABLE_GPR_DECODING=1" <> "ENABLE_GPR_DECODING=0")
    by discriminate.
  destruct cmdline as [s |]; simpl.
  - intros H. apply valid_selection_cases in H.
    destruct H as [-> | [-> | ->]].
    + exists "ENABLE_GPR_ENCODING=1", "ENABLE_GPR_DECODING=0".
      split; [apply script_gpr_encoding | tauto].
    + exists "ENABLE_GPR_ENCODING=0", "ENABLE_GPR_DECODING=1".
      split; [apply script_gpr_decoding | tauto].
    + exists "ENABLE_GPR_ENCODING=1", "ENABLE_GPR_DECODING=1".
      split; [apply script_all | tauto].
  - intros _. exists "ENABLE_GPR_ENCODING=1", "ENABLE_GPR_DECODING=1".
    split; [apply script_all | tauto].
Qed.

Lemma script_rejects v st0 :
  ~ valid_selection v ->
  script (Some v) st0 =
    (Raise (SystemExit 2), mkState (Some gyp_build_object_literal) (stdout st0)).
Proof.
  intros H. unfold script, assign_gyp_build_object, parse_args, bind.
  now rewrite check_value_rejects.
Qed.

(** ** The input boundary *)

(** C3. A value outside the three choices is rejected by [parse_args]:
    the run ends in [SystemExit 2] before lines 182-192, so nothing is
    printed, the defines are still the baseline ones, and no run on such a
    value returns normally. *)
Theorem invalid_selection_rejected (v : string) (st0 : state) :
  ~ valid_selection v ->
  parse_args (Some v) st0 = (Raise (SystemExit 2), st0) /\
  script (Some v) st0 =
    (Raise (SystemExit 2),
     mkState (Some gyp_build_object_literal) (stdout st0)) /\
  stdout (snd (script (Some v) st0)) = stdout st0 /\
  state_defines (snd (script (Some v) st0)) = Some baseline_defines /\
  fst (script (Some v) st0) <> Return tt.
Proof.
  intros H. split.
  - unfold parse_args, bind. now rewrite check_value_rejects.
  - rewrite (script_rejects v st0 H). simpl.
    repeat split; discriminate.
Qed.

Lemma invalid_selection_rejected_witness :
  ~ valid_selection "gpr" /\
  parse_args (Some "gpr") initial_state = (Raise (SystemExit 2), initial_state) /\
  script (Some "gpr") initial_state =
    (Raise (SystemExit 2),
     mkState (Some gyp_build_object_literal) (stdout initial_state)) /\
  stdout (snd (script (Some "gpr") initial_state)) = stdout initial_state /\
  state_defines (snd (script (Some "gpr") initial_state))
    = Some baseline_defines /\
  fst (script (Some "gpr") initial_state) <> Return tt.
Proof.
  assert (H : ~ valid_selection "gpr").
  { unfold valid_selection. simpl. intros [H | [H | [H | []]]]; discriminate. }
  split; [exact H |].
  exact (invalid_selection_rejected "gpr" initial_state H).
Defined.

(** ** The resolver on an arbitrary descriptor *)

Lemma defines_append_twice x y st entries tfields rest defs :
  gyp_build_object st = Some (Dict entries) ->
  Py.dict_get "targets" entries = Some (Lst (Dict tfields :: rest)) ->
  Py.dict_get "defines" tfields = Some (Lst defs) ->
  (defines_append x ;; defines_append y) st =
    (Return tt,
     mkState (Some (with_defines entries tfields rest (defs ++ [ Str x; Str y ])))
             (stdout st)).
Proof.
  intros Ho Ht Hd. unfold bind.
  rewrite (defines_append_spec x st entries tfields rest defs Ho Ht Hd).
  erewrite defines_append_spec;
    [| reflexivity | apply dict_get_set_same | apply dict_get_set_same ].
  simpl. rewrite with_defines_again, <- app_assoc. reflexivity.
Qed.

Lemma resolve_spec s st entries tfields rest defs :
  gyp_build_object st = Some (Dict entries) ->
  Py.dict_get "targets" entries = Some (Lst (Dict tfields :: rest)) ->
  Py.dict_get "defines" tfields = Some (Lst defs) ->
  exists e d,
    resolve (mkNamespace s) st =
      (Return tt,
       mkState (Some (with_defines entries tfields rest (defs ++ [ Str e; Str d ])))
               (stdout st)) /\
    (e = "ENABLE_GPR_ENCODING=1" /\ (s = "gpr_encoding" \/ s = "all") \/
     e = "ENABLE_GPR_ENCODING=0" /\ ~ (s = "gpr_encoding" \/ s = "all")) /\
    (d = "ENABLE_GPR_DECODING=1" /\ (s = "gpr_decoding" \/ s = "all") \/
     d = "ENABLE_GPR_DECODING=0" /\ ~ (s = "gpr_decoding" \/ s = "all")).
Proof.
  intros Ho Ht Hd. unfold resolve, resolve_encoding, resolve_decoding. simpl.
  destruct (String.eqb s "gpr_encoding" || String.eqb s "all") eqn:Ee;
  destruct (String.eqb s "gpr_decoding" || String.eqb s "all") eqn:Ed;
  (eexists; eexists; split;
   [ eapply defines_append_twice; eassumption | ]);
  rewrite <- encoding_condition, <- decoding_condition, Ee, Ed;
  split; ((left; split; [reflexivity | reflexivity])
          || (right; split; [reflexivity | discriminate])).
Qed.

(** ** Layout of the final defines *)

(** C4. For every valid module selection the printed descriptor's defines
    are the baseline defines followed by exactly two more, the
    [ENABLE_GPR_ENCODING] define and then the [ENABLE_GPR_DECODING] define:
    their number is the baseline count plus 2. *)
Theorem final_defines_layout (s : string) (st0 : state) :
  valid_selection s ->
  exists o defs e d,
    script (Some s) st0 = (Return tt, printed st0 o) /\
    descriptor_defines o = Some defs /\
    length defs = length baseline_defines + 2 /\
    defs = baseline_defines ++ [ Str e; Str d ] /\
    define_key e = "ENABLE_GPR_ENCODING" /\
    define_key d = "ENABLE_GPR_DECODING".
Proof.
  intros H.
  destruct (script_accepted (Some s) st0 H) as (e & d & Hrun & He & Hd & _).
  exists (descriptor_with (baseline_defines ++ [ Str e; Str d ])),
         (baseline_defines ++ [ Str e; Str d ]), e, d.
  split; [exact Hrun |]. split; [reflexivity |].
  split; [reflexivity |]. split; [reflexivity |].
  split; [destruct He as [-> | ->] | destruct Hd as [-> | ->]]; reflexivity.
Qed.

Lemma final_defines_layout_witness :
  valid_selection "gpr_encoding" /\
  exists o defs e d,
    script (Some "gpr_encoding") initial_state
      = (Return tt, printed initial_state o) /\
    descriptor_defines o = Some defs /\
    length defs = length baseline_defines + 2 /\
    defs = baseline_defines ++ [ Str e; Str d ] /\
    define_key e = "ENABLE_GPR_ENCODING" /\
    define_key d = "ENABLE_GPR_DECODING".
Proof.
  assert (H : valid_selection "gpr_encoding")
    by (unfold valid_selection; simpl; tauto).
  split; [exact H |].
  exact (final_defines_layout "gpr_encoding" initial_state H).
Defined.

(** ** What resolution leaves alone *)

(** C5. For every valid module selection, lines 182-190 run on a
    descriptor [Dict entries] whose first target [Dict tfields] has a
    defines list change that list and nothing else: nothing is printed, the
    top-level dict keeps its keys, their order and every value but
    ['targets'], the targets list keeps every target after the first, and
    the first target keeps its keys, their order and every field but
    ['defines']; its ['sources'] in particular are the same list. *)
Theorem resolve_frame (s : string) (st : state)
  (entries tfields : list (string * value)) (rest defs : list value) :
  valid_selection s ->
  gyp_build_object st = Some (Dict entries) ->
  Py.dict_get "targets" entries = Some (Lst (Dict tfields :: rest)) ->
  Py.dict_get "defines" tfields = Some (Lst defs) ->
  exists entries' tfields' defs',
    resolve (mkNamespace s) st =
      (Return tt, mkState (Some (Dict entries')) (stdout st)) /\
    Py.dict_get "targets" entries' = Some (Lst (Dict tfields' :: rest)) /\
    map fst entries' = map fst entries /\
    (forall k, k <> "targets" ->
       Py.dict_get k entries' = Py.dict_get k entries) /\
    Py.dict_get "defines" tfields' = Some (Lst defs') /\
    map fst tfields' = map fst tfields /\
    (forall k, k <> "defines" ->
       Py.dict_get k tfields' = Py.dict_get k tfields) /\
    Py.dict_get "sources" tfields' = Py.dict_get "sources" tfields.
Proof.
  intros _ Ho Ht Hd.
  destruct (resolve_spec s st entries tfields rest defs Ho Ht Hd)
    as (e & d & Hrun & _).
  exists (Py.dict_set "targets"
            (Lst (Dict (Py.dict_set "defines"
                          (Lst (defs ++ [ Str e; Str d ])) tfields) :: rest))
            entries),
         (Py.dict_set "defines" (Lst (defs ++ [ Str e; Str d ])) tfields),
         (defs ++ [ Str e; Str d ]).
  split; [exact Hrun |].
  split; [apply dict_get_set_same |].
  split; [eapply dict_set_keys; eassumption |].
  split; [intros k Hk; now apply dict_get_set_other |].
  split; [apply dict_get_set_same |].
  split; [eapply dict_set_keys; eassumption |].
  split; [intros k Hk; now apply dict_get_set_other |].
  apply dict_get_set_other. discriminate.
Qed.

Lemma resolve_frame_witness :
  valid_selection "gpr_decoding" /\
  gyp_build_object catalog_state = Some (Dict gyp_build_object_entries) /\
  Py.dict_get "targets" gyp_build_object_entries
    = Some (Lst (Dict dng_sdk_target_fields :: [])) /\
  Py.dict_get "defines" dng_sdk_target_fields = Some (Lst baseline_defines) /\
  exists entries' tfields' defs',
    resolve (mkNamespace "gpr_decoding") catalog_state =
      (Return tt, mkState (Some (Dict entries')) (stdout catalog_state)) /\
    Py.dict_get "targets" entries' = Some (Lst (Dict tfields' :: [])) /\
    map fst entries' = map fst gyp_build_object_entries /\
    (forall k, k <> "targets" ->
       Py.dict_get k entries' = Py.dict_get k gyp_build_object_entries) /\
    Py.dict_get "defines" tfields' = Some (Lst defs') /\
    map fst tfields' = map fst dng_sdk_target_fields /\
    (forall k, k <> "defines" ->
       Py.dict_get k tfields' = Py.dict_get k dng_sdk_target_fields) /\
    Py.dict_get "sources" tfields' = Py.dict_get "sources" dng_sdk_target_fields.
Proof.
  assert (H : valid_selection "gpr_decoding")
    by (unfold valid_selection; simpl; tauto).
  split; [exact H |].
  split; [reflexivity |]. split; [reflexivity |]. split; [reflexivity |].
  apply (resolve_frame "gpr_decoding" catalog_state gyp_build_object_entries
           dng_sdk_target_fields [] baseline_defines H);
    reflexivity.
Defined.

(** ** One define per feature *)

(** C6. For every valid module selection the printed descriptor's defines
    hold exactly one entry with the key [ENABLE_GPR_ENCODING] and exactly
    one with the key [ENABLE_GPR_DECODING]. *)
Theorem one_define_per_feature (s : string) (st0 : state) :
  valid_selection s ->
  exists o defs,
    script (Some s) st0 = (Return tt, printed st0 o) /\
    descriptor_defines o = Some defs /\
    count_key "ENABLE_GPR_ENCODING" defs = 1 /\
    count_key "ENABLE_GPR_DECODING" defs = 1.
Proof.
  intros H.
  destruct (script_accepted (Some s) st0 H) as (e & d & Hrun & He & Hd & _).
  exists (descriptor_with (baseline_defines ++ [ Str e; Str d ])),
         (baseline_defines ++ [ Str e; Str d ]).
  split; [exact Hrun |]. split; [reflexivity |].
  destruct He as [-> | ->]; destruct Hd as [-> | ->]; split; reflexivity.
Qed.

Lemma one_define_per_feature_witness :
  valid_selection "all" /\
  exists o defs,
    script (Some "all") initial_state = (Return tt, printed initial_state o) /\
    descriptor_defines o = Some defs /\
    count_key "ENABLE_GPR_ENCODING" defs = 1 /\
    count_key "ENABLE_GPR_DECODING" defs = 1.
Proof.
  assert (H : valid_selection "all")
    by (unfold valid_selection; simpl; tauto).
  split; [exact H |].
  exact (one_define_per_feature "all" initial_state H).
Defined.

(** ** Determinism *)

(** C7. For every valid selection [s] the descriptor is a function of [s]
    alone.  One descriptor [o] is what every run on [s] binds and prints,
    whatever the state the run starts in (anything bound to the global
    before line 10, anything printed before).  And one pair of defines is
    what lines 182-190 append on [s], whatever descriptor they run on and
    whatever its defines were before. *)
Theorem resolution_deterministic (s : string) :
  valid_selection s ->
  (exists o, forall st0, script (Some s) st0 = (Return tt, printed st0 o)) /\
  (exists e d, forall st defs,
     state_defines st = Some defs ->
     exists st',
       resolve (mkNamespace s) st = (Return tt, st') /\
       state_defines st' = Some (defs ++ [ Str e; Str d ]) /\
       stdout st' = stdout st).
Proof.
  intros H. apply valid_selection_cases in H.
  assert (Hpair : forall x y,
    resolve (mkNamespace s) = (defines_append x ;; defines_append y) ->
    exists e d, forall st defs,
      state_defines st = Some defs ->
      exists st',
        resolve (mkNamespace s) st = (Return tt, st') /\
        state_defines st' = Some (defs ++ [ Str e; Str d ]) /\
        stdout st' = stdout st).
  { intros x y Hres. exists x, y. intros st defs Hd. rewrite Hres.
    unfold state_defines in Hd.
    destruct (gyp_build_object st) as [o |] eqn:Eo; [| discriminate].
    apply descriptor_defines_shape in Hd.
    destruct Hd as (entries & tfields & rest & -> & Ht & Hd).
    eexists. split; [eapply defines_append_twice; eassumption |].
    split; [apply with_defines_defines | reflexivity]. }
  destruct H as [-> | [-> | ->]].
  - split; [eexists; intros st0; apply script_gpr_encoding |].
    apply (Hpair "ENABLE_GPR_ENCODING=1" "ENABLE_GPR_DECODING=0"). reflexivity.
  - split; [eexists; intros st0; apply script_gpr_decoding |].
    apply (Hpair "ENABLE_GPR_ENCODING=0" "ENABLE_GPR_DECODING=1"). reflexivity.
  - split; [eexists; intros st0; apply script_all |].
    apply (Hpair "ENABLE_GPR_ENCODING=1" "ENABLE_GPR_DECODING=1"). reflexivity.
Qed.

Lemma resolution_deterministic_witness :
  valid_selection "gpr_encoding" /\
  (exists o, forall st0,
     script (Some "gpr_encoding") st0 = (Return tt, printed st0 o)) /\
  (exists e d, forall st defs,
     state_defines st = Some defs ->
     exists st',
       resolve (mkNamespace "gpr_encoding") st = (Return tt, st') /\
       state_defines st' = Some (defs ++ [ Str e; Str d ]) /\
       stdout st' = stdout st).
Proof.
  assert (H : valid_selection "gpr_encoding")
    by (unfold valid_selection; simpl; tauto).
  split; [exact H |].
  exact (resolution_deterministic "gpr_encoding" H).
Defined.

(** ** The default selection *)

(** C8. Without a [--modules] option [parse_args] yields the selection
    ["all"]: the run is the run on ["all"], and the printed descriptor ends
    in [ENABLE_GPR_ENCODING=1], [ENABLE_GPR_DECODING=1]. *)
Theorem default_selection_is_all (st0 : state) :
  parse_args None st0 = (Return (mkNamespace "all"), st0) /\
  script None st0 = script (Some "all") st0 /\
  exists o,
    script None st0 = (Return tt, printed st0 o) /\
    descriptor_defines o =
      Some (baseline_defines ++
              [ Str "ENABLE_GPR_ENCODING=1"; Str "ENABLE_GPR_DECODING=1" ]).
Proof.
  split; [reflexivity |]. split; [apply script_no_option |].
  eexists. split; [rewrite script_no_option; apply script_all | reflexivity].
Qed.

(** ** The both-disabled pair *)

(** On a value outside the choices the two conditions of lines 182 and 187
    both fail: the resolver alone would append the both-disabled pair. *)
Example resolve_unrecognised :
  state_defines (snd (resolve (mkNamespace "gpr") catalog_state)) =
    Some (baseline_defines ++
            [ Str "ENABLE_GPR_ENCODING=0"; Str "ENABLE_GPR_DECODING=0" ]).
Proof. reflexivity. Qed.

(** C9. Lines 182-190 always append a pair of defines, and for a valid
    selection the pair is never [ENABLE_GPR_ENCODING=0],
    [ENABLE_GPR_DECODING=0], nor does a run of the script on a valid
    selection print a descriptor ending in that pair.  A selection for
    which the pair is the both-disabled one is outside the choices, and
    the script rejects it in [parse_args], before the resolver runs. *)
Theorem never_both_disabled (s : string) (st : state) (defs : list value) :
  state_defines st = Some defs ->
  exists e d st',
    resolve (mkNamespace s) st = (Return tt, st') /\
    state_defines st' = Some (defs ++ [ Str e; Str d ]) /\
    (valid_selection s ->
       ~ (e = "ENABLE_GPR_ENCODING=0" /\ d = "ENABLE_GPR_DECODING=0") /\
       forall st0 o,
         script (Some s) st0 = (Return tt, printed st0 o) ->
         descriptor_defines o <>
           Some (baseline_defines ++
                   [ Str "ENABLE_GPR_ENCODING=0"; Str "ENABLE_GPR_DECODING=0" ])) /\
    (e = "ENABLE_GPR_ENCODING=0" /\ d = "ENABLE_GPR_DECODING=0" ->
       ~ valid_selection s /\
       forall st0,
         script (Some s) st0 =
           (Raise (SystemExit 2),
            mkState (Some gyp_build_object_literal) (stdout st0))).
Proof.
  intros Hd. unfold state_defines in Hd.
  destruct (gyp_build_object st) as [o |] eqn:Eo; [| discriminate].
  apply descriptor_defines_shape in Hd.
  destruct Hd as (entries & tfields & rest & -> & Ht & Hd).
  destruct (resolve_spec s st entries tfields rest defs Eo Ht Hd)
    as (e & d & Hrun & He & Hdd).
  assert (Hinv : e = "ENABLE_GPR_ENCODING=0" /\ d = "ENABLE_GPR_DECODING=0" ->
                 ~ valid_selection s).
  { intros [-> ->] Hv. apply valid_selection_cases in Hv.
    destruct He as [[He _] | [_ He]]; [discriminate He |].
    destruct Hdd as [[Hdd _] | [_ Hdd]]; [discriminate Hdd |].
    tauto. }
  exists e, d. eexists. split; [exact Hrun |].
  split; [apply with_defines_defines |]. split.
  - intros Hv. split; [intros Hz; exact (Hinv Hz Hv) |].
    intros st0 o0 Hs.
    destruct (script_accepted (Some s) st0 Hv) as (e' & d' & Hs' & _ & _ & Hne).
    rewrite Hs' in Hs. unfold printed in Hs. injection Hs as Ho _. subst o0.
    unfold descriptor_defines. simpl. intros Heq.
    injection Heq as He' Hd'. apply Hne. split; assumption.
  - intros Hz. split; [exact (Hinv Hz) |].
    intros st0. apply script_rejects. exact (Hinv Hz).
Qed.

Lemma never_both_disabled_witness :
  state_defines catalog_state = Some baseline_defines /\
  exists e d st',
    resolve (mkNamespace "gpr_decoding") catalog_state = (Return tt, st') /\
    state_defines st' = Some (baseline_defines ++ [ Str e; Str d ]) /\
    (valid_selection "gpr_decoding" ->
       ~ (e = "ENABLE_GPR_ENCODING=0" /\ d = "ENABLE_GPR_DECODING=0") /\
       forall st0 o,
         script (Some "gpr_decoding") st0 = (Return tt, printed st0 o) ->
         descriptor_defines o <>
           Some (baseline_defines ++
                   [ Str "ENABLE_GPR_ENCODING=0"; Str "ENABLE_GPR_DECODING=0" ])) /\
    (e = "ENABLE_GPR_ENCODING=0" /\ d = "ENABLE_GPR_DECODING=0" ->
       ~ valid_selection "gpr_decoding" /\
       forall st0,
         script (Some "gpr_decoding") st0 =
           (Raise (SystemExit 2),
            mkState (Some gyp_build_object_literal) (stdout st0))).
Proof.
  split; [reflexivity |].
  apply (never_both_disabled "gpr_decoding" catalog_state baseline_defines).
  reflexivity.
Defined.

(** ** The fixed part of the descriptor *)

(** The catalog lists 140 source files. *)
Lemma sources_length : length sources = 140.
Proof. reflexivity. Qed.

(** C10, as stated, fails on the number of sources: the descriptor printed
    for ["all"] has no sources list of 141 entries. *)
Lemma sources_count_is_not_141 :
  ~ (exists o srcs,
       script (Some "all") initial_state = (Return tt, printed initial_state o) /\
       target_field "sources" o = Return (Lst srcs) /\
       length srcs = 141).
Proof.
  intros (o & srcs & Hrun & Hs & Hl).
  rewrite script_all in Hrun. unfold printed in Hrun.
  injection Hrun as Ho _. subst o.
  vm_compute in Hs. injection Hs as Hs. subst srcs.
  vm_compute in Hl. discriminate Hl.
Qed.

(** C10, amended. For every accepted module selection (a valid value or
    none) the printed descriptor has [target_name] ["dng_sdk"] and [type]
    ["static_library"]; its sources list is not empty, has 140 entries and
    begins with ["./dng_validate.cpp"]; and its defines begin with
    ['<@(default_defines)'], ['qDNGXMPFiles=0'], ['qDNGXMPDocOps=0'] in
    that order, followed by the two feature defines. *)
Theorem descriptor_fixed_fields (cmdline : option string) (st0 : state) :
  accepted cmdline ->
  exists o srcs pair,
    script cmdline st0 = (Return tt, printed st0 o) /\
    target_field "target_name" o = Return (Str "dng_sdk") /\
    target_field "type" o = Return (Str "static_library") /\
    target_field "sources" o = Return (Lst srcs) /\
    srcs <> [] /\
    length srcs = 140 /\
    nth_error srcs 0 = Some (Str "./dng_validate.cpp") /\
    descriptor_defines o =
      Some ([ Str "<@(default_defines)"; Str "qDNGXMPFiles=0";
              Str "qDNGXMPDocOps=0" ] ++ pair) /\
    length pair = 2.
Proof.
  intros H.
  destruct (script_accepted cmdline st0 H) as (e & d & Hrun & _).
  exists (descriptor_with (baseline_defines ++ [ Str e; Str d ])),
         sources, [ Str e; Str d ].
  split; [exact Hrun |].
  repeat split; try reflexivity. discriminate.
Qed.

Lemma descriptor_fixed_fields_witness :
  accepted (Some "gpr_decoding") /\
  exists o srcs pair,
    script (Some "gpr_decoding") initial_state
      = (Return tt, printed initial_state o) /\
    target_field "target_name" o = Return (Str "dng_sdk") /\
    target_field "type" o = Return (Str "static_library") /\
    target_field "sources" o = Return (Lst srcs) /\
    srcs <> [] /\
    length srcs = 140 /\
    nth_error srcs 0 = Some (Str "./dng_validate.cpp") /\
    descriptor_defines o =
      Some ([ Str "<@(default_defines)"; Str "qDNGXMPFiles=0";
              Str "qDNGXMPDocOps=0" ] ++ pair) /\
    length pair = 2.
Proof.
  assert (H : accepted (Some "gpr_decoding"))
    by (unfold accepted, valid_selection; simpl; tauto).
  split; [exact H |].
  exact (descriptor_fixed_fields (Some "gpr_decoding") initial_state H).
Defined.

(** ** In-place append along any access path *)

Lemma list_set_same i v l w :
  nth_error l i = Some w -> nth_error (Py.list_set i v l) i = Some v.
Proof.
  revert i. induction l as [| x l IH]; intros [| i]; simpl; try discriminate.
  - reflexivity.
  - apply IH.
Qed.


(** No subscript chain starting at a string reaches a list. *)
Lemma lookup_str_not_list path s l : Py.lookup path (Str s) <> Return (Lst l).
Proof.
  revert s. induction path as [| [k | i] path IH]; intros s; simpl;
    try discriminate.
  unfold Py.char_at. destruct (String.get i s); [apply IH | discriminate].
Qed.

(** Reading back the subscript that was just written. *)
Lemma getitem_setitem_same o s c c' :
  (forall x, o <> Str x) ->
  Py.getitem o s = Return c ->
  Py.getitem (Py.setitem o s c') s = Return c'.
Proof.
  intros Hstr. destruct o as [x | l | d]; [now destruct (Hstr x) | |];
    destruct s as [k | i]; simpl; try discriminate.
  - destruct (nth_error l i) as [w |] eqn:E; [| discriminate].
    intros _. now rewrite (list_set_same i c' l w E).
  - intros _. now rewrite dict_get_set_same.
Qed.


Lemma append_at_reaches path x o l :
  Py.lookup path o = Return (Lst l) ->
  exists o',
    Py.append_at path x o = Return o' /\
    Py.lookup path o' = Return (Lst (l ++ [x])).
Proof.
  revert o. induction path as [| s path IH]; intros o; simpl.
  - intros H. injection H as ->. eexists. split; reflexivity.
  - destruct (Py.getitem o s) as [c | e] eqn:Eg; [| discriminate].
    intros H.
    assert (Hstr : forall y, o <> Str y).
    { intros y ->. destruct s as [k | i]; simpl in Eg; [discriminate |].
      unfold Py.char_at in Eg. destruct (String.get i y); [| discriminate].
      injection Eg as <-. exact (lookup_str_not_list _ _ _ H). }
    destruct (IH c H) as (c' & Ha & Hl). rewrite Ha.
    eexists. split; [reflexivity |].
    now rewrite (getitem_setitem_same o s c c' Hstr Eg).
Qed.

(** X1. [o[s1]...[sn].append(x)] on any object and any access path that
    reaches a list succeeds, and the same path then reaches that list with
    [x] added at its end. *)
Theorem append_at_lookup (path : list subscript) (x o : value) (l : list value) :
  Py.lookup path o = Return (Lst l) ->
  exists o',
    Py.append_at path x o = Return o' /\
    Py.lookup path o' = Return (Lst (l ++ [x])).
Proof. apply append_at_reaches. Qed.

Lemma append_at_lookup_witness :
  Py.lookup defines_path gyp_build_object_literal
    = Return (Lst baseline_defines) /\
  exists o',
    Py.append_at defines_path (Str "X=1") gyp_build_object_literal
      = Return o' /\
    Py.lookup defines_path o' = Return (Lst (baseline_defines ++ [Str "X=1"])).
Proof.
  split; [reflexivity |].
  apply (append_at_lookup defines_path (Str "X=1") gyp_build_object_literal
           baseline_defines).
  reflexivity.
Defined.



(** ** When the append fails *)

Lemma append_at_raises path x o e :
  Py.lookup path o = Raise e -> Py.append_at path x o = Raise e.
Proof.
  revert o. induction path as [| s path IH]; intros o; simpl; [discriminate |].
  destruct (Py.getitem o s) as [c | e'] eqn:Eg.
  - intros H. now rewrite (IH c H).
  - intros H. exact H.
Qed.

Lemma append_at_not_list path x o v :
  Py.lookup path o = Return v ->
  (forall l, v <> Lst l) ->
  Py.append_at path x o = Raise AttributeError.
Proof.
  revert o. induction path as [| s path IH]; intros o; simpl.
  - intros H Hv. injection H as ->.
    destruct v as [y | l | d]; try reflexivity. now destruct (Hv l).
  - destruct (Py.getitem o s) as [c | e'] eqn:Eg; [| discriminate].
    intros H Hv. now rewrite (IH c H Hv).
Qed.

(** X3. The append fails exactly as its receiver says: when evaluating the
    subscripts raises, the statement raises that same exception, and when
    they reach an object that is not a list it raises [AttributeError]. *)
Theorem append_at_failure (path : list subscript) (x o : value) :
  (forall e, Py.lookup path o = Raise e -> Py.append_at path x o = Raise e) /\
  (forall v, Py.lookup path o = Return v -> (forall l, v <> Lst l) ->
             Py.append_at path x o = Raise AttributeError).
Proof.
  split.
  - intros e. apply append_at_raises.
  - intros v. apply append_at_not_list.
Qed.

Lemma append_at_failure_witness :
  Py.append_at defines_path (Str "X=1") (Dict [])
    = Raise (KeyError (Key "targets")) /\
  Py.append_at defines_path (Str "X=1")
      (Dict [("targets", Lst [ Dict [("defines", Dict [])] ])])
    = Raise AttributeError.
Proof.
  split.
  - apply (proj1 (append_at_failure defines_path (Str "X=1") (Dict []))).
    reflexivity.
  - apply (proj2 (append_at_failure defines_path (Str "X=1")
                    (Dict [("targets", Lst [ Dict [("defines", Dict [])] ])]))
             (Dict [])); [reflexivity | discriminate].
Defined.


Lemma defines_append_fails x st :
  state_defines st = None -> exists e, defines_append x st = (Raise e, st).
Proof.
  unfold state_defines, defines_append, descriptor_defines.
  destruct (gyp_build_object st) as [o |]; [| eexists; reflexivity].
  destruct (Py.lookup defines_path o) as [v | e] eqn:El.
  - destruct v as [y | l | d]; try discriminate; intros _;
      exists AttributeError;
      rewrite (append_at_not_list defines_path (Str x) o _ El);
      try reflexivity; intros l; discriminate.
  - intros _. exists e.
    now rewrite (append_at_raises defines_path (Str x) o e El).
Qed.

Lemma resolve_fails s st :
  state_defines st = None ->
  exists e, resolve (mkNamespace s) st = (Raise e, st).
Proof.
  intros H. unfold resolve, resolve_encoding, bind. simpl.
  destruct (String.eqb s "gpr_encoding" || String.eqb s "all");
    [destruct (defines_append_fails "ENABLE_GPR_ENCODING=1" st H) as (e & He)
    |destruct (defines_append_fails "ENABLE_GPR_ENCODING=0" st H) as (e & He)];
    exists e; now rewrite He.
Qed.

Lemma resolve_succeeds s st defs :
  state_defines st = Some defs ->
  exists e d st',
    resolve (mkNamespace s) st = (Return tt, st') /\
    state_defines st' = Some (defs ++ [ Str e; Str d ]) /\
    stdout st' = stdout st /\
    (e = "ENABLE_GPR_ENCODING=1" /\ (s = "gpr_encoding" \/ s = "all") \/
     e = "ENABLE_GPR_ENCODING=0" /\ ~ (s = "gpr_encoding" \/ s = "all")) /\
    (d = "ENABLE_GPR_DECODING=1" /\ (s = "gpr_decoding" \/ s = "all") \/
     d = "ENABLE_GPR_DECODING=0" /\ ~ (s = "gpr_decoding" \/ s = "all")).
Proof.
  intros Hd. unfold state_defines in Hd.
  destruct (gyp_build_object st) as [o |] eqn:Eo; [| discriminate].
  apply descriptor_defines_shape in Hd.
  destruct Hd as (entries & tfields & rest & -> & Ht & Hd).
  destruct (resolve_spec s st entries tfields rest defs Eo Ht Hd)
    as (e & d & Hrun & He & Hdd).
  exists e, d. eexists. split; [exact Hrun |].
  split; [apply with_defines_defines |]. split; [reflexivity |]. tauto.
Qed.

(** X4. Lines 182-190 append both defines or none: on any selection and
    any state they fail exactly when the descriptor has no defines list,
    and a failed run leaves the state as it found it (no lone encoding
    define is ever left behind). *)
Theorem resolve_all_or_nothing (s : string) (st : state) :
  (state_defines st = None <->
     exists e, resolve (mkNamespace s) st = (Raise e, st)) /\
  (forall e st', resolve (mkNamespace s) st = (Raise e, st') ->
     st' = st /\ state_defines st = None).
Proof.
  assert (Hraise : forall e st',
    resolve (mkNamespace s) st = (Raise e, st') ->
    st' = st /\ state_defines st = None).
  { intros e st' Hr. destruct (state_defines st) as [defs |] eqn:Ed.
    - destruct (resolve_succeeds s st defs Ed) as (e1 & d1 & st1 & Hrun & _).
      rewrite Hrun in Hr. discriminate.
    - destruct (resolve_fails s st Ed) as (e1 & Hrun).
      rewrite Hrun in Hr. injection Hr as _ <-. auto. }
  split; [| exact Hraise]. split.
  - apply resolve_fails.
  - intros (e & Hr). exact (proj2 (Hraise e st Hr)).
Qed.

Lemma resolve_all_or_nothing_witness :
  state_defines initial_state = None /\
  exists e, resolve (mkNamespace "all") initial_state = (Raise e, initial_state).
Proof.
  split; [reflexivity |].
  apply (proj1 (proj1 (resolve_all_or_nothing "all" initial_state))).
  reflexivity.
Defined.


(** X5. What [gyp_build_object['targets'][0]['defines'].append(x)] raises
    on a descriptor that lacks a part, the state staying as it was:
    [NameError] when the global is unbound, [KeyError] on ['targets'] when
    that key is missing, [IndexError] when the targets list is empty,
    [KeyError] on ['defines'] when the first target has no such key, and
    [AttributeError] when ['defines'] holds a string instead of a list. *)
Theorem defines_append_errors (x : string) (out : list value) :
  defines_append x (mkState None out)
    = (Raise (NameError "gyp_build_object"), mkState None out) /\
  (forall entries,
     Py.dict_get "targets" entries = None ->
     defines_append x (mkState (Some (Dict entries)) out)
       = (Raise (KeyError (Key "targets")), mkState (Some (Dict entries)) out)) /\
  (forall entries,
     Py.dict_get "targets" entries = Some (Lst []) ->
     defines_append x (mkState (Some (Dict entries)) out)
       = (Raise IndexError, mkState (Some (Dict entries)) out)) /\
  (forall entries tfields rest,
     Py.dict_get "targets" entries = Some (Lst (Dict tfields :: rest)) ->
     Py.dict_get "defines" tfields = None ->
     defines_append x (mkState (Some (Dict entries)) out)
       = (Raise (KeyError (Key "defines")), mkState (Some (Dict entries)) out)) /\
  (forall entries tfields rest y,
     Py.dict_get "targets" entries = Some (Lst (Dict tfields :: rest)) ->
     Py.dict_get "defines" tfields = Some (Str y) ->
     defines_append x (mkState (Some (Dict entries)) out)
       = (Raise AttributeError, mkState (Some (Dict entries)) out)).
Proof.
  split; [reflexivity |].
  split; [intros entries H; unfold defines_append; simpl; now rewrite H |].
  split; [intros entries H; unfold defines_append; simpl; now rewrite H |].
  split; intros entries tfields rest.
  - intros Ht Hd. unfold defines_append. simpl. rewrite Ht. simpl.
    now rewrite Hd.
  - intros y Ht Hd. unfold defines_append. simpl. rewrite Ht. simpl.
    now rewrite Hd.
Qed.

Lemma defines_append_errors_witness :
  defines_append "X=1" (mkState (Some (Dict [])) [])
    = (Raise (KeyError (Key "targets")), mkState (Some (Dict [])) []) /\
  defines_append "X=1" (mkState (Some (Dict [("targets", Lst [])])) [])
    = (Raise IndexError, mkState (Some (Dict [("targets", Lst [])])) []) /\
  defines_append "X=1"
      (mkState (Some (Dict [("targets", Lst [ Dict [("type", Str "none")] ])])) [])
    = (Raise (KeyError (Key "defines")),
       mkState (Some (Dict [("targets", Lst [ Dict [("type", Str "none")] ])])) []) /\
  defines_append "X=1"
      (mkState (Some (Dict [("targets", Lst [ Dict [("defines", Str "A=1")] ])])) [])
    = (Raise AttributeError,
       mkState (Some (Dict [("targets", Lst [ Dict [("defines", Str "A=1")] ])])) []).
Proof.
  destruct (defines_append_errors "X=1" []) as (_ & Hk & Hi & Hd & Ha).
  split; [apply Hk; reflexivity |].
  split; [apply Hi; reflexivity |].
  split; [eapply Hd; reflexivity |].
  eapply Ha; reflexivity.
Defined.


(** ** The resolver without the input boundary *)

(** X6. Lines 182-190 do not validate the selection themselves: run on
    any value outside the three choices they succeed and append the
    both-disabled pair [ENABLE_GPR_ENCODING=0], [ENABLE_GPR_DECODING=0]. *)
Theorem resolve_unvalidated (s : string) (st : state) (defs : list value) :
  ~ valid_selection s ->
  state_defines st = Some defs ->
  exists st',
    resolve (mkNamespace s) st = (Return tt, st') /\
    state_defines st' =
      Some (defs ++ [ Str "ENABLE_GPR_ENCODING=0"; Str "ENABLE_GPR_DECODING=0" ]).
Proof.
  intros Hv Hd.
  destruct (resolve_succeeds s st defs Hd)
    as (e & d & st' & Hrun & Hdefs & _ & He & Hdd).
  exists st'. split; [exact Hrun |].
  rewrite valid_selection_cases in Hv.
  destruct He as [[_ He] | [-> _]]; [tauto |].
  destruct Hdd as [[_ Hdd] | [-> _]]; [tauto |].
  exact Hdefs.
Qed.

Lemma resolve_unvalidated_witness :
  ~ valid_selection "GPR_ENCODING" /\
  state_defines catalog_state = Some baseline_defines /\
  exists st',
    resolve (mkNamespace "GPR_ENCODING") catalog_state = (Return tt, st') /\
    state_defines st' =
      Some (baseline_defines ++
              [ Str "ENABLE_GPR_ENCODING=0"; Str "ENABLE_GPR_DECODING=0" ]).
Proof.
  assert (H : ~ valid_selection "GPR_ENCODING").
  { unfold valid_selection. simpl. intros [H | [H | [H | []]]]; discriminate. }
  split; [exact H |]. split; [reflexivity |].
  apply (resolve_unvalidated "GPR_ENCODING" catalog_state baseline_defines H).
  reflexivity.
Defined.

(** ** How the two appends compose *)

Lemma count_key_app k l1 l2 :
  count_key k (l1 ++ l2) = count_key k l1 + count_key k l2.
Proof. unfold count_key. now rewrite filter_app, length_app. Qed.

(** X7. Lines 182-190 are not idempotent: run a second time on the same
    descriptor they succeed again and append the same pair once more, so
    every feature key then occurs twice more than before the two runs. *)
Theorem resolve_twice (s : string) (st : state) (defs : list value) :
  state_defines st = Some defs ->
  exists e d st',
    (resolve (mkNamespace s) ;; resolve (mkNamespace s)) st = (Return tt, st') /\
    state_defines st' = Some (defs ++ [ Str e; Str d; Str e; Str d ]) /\
    count_key "ENABLE_GPR_ENCODING" (defs ++ [ Str e; Str d; Str e; Str d ])
      = count_key "ENABLE_GPR_ENCODING" defs + 2 /\
    count_key "ENABLE_GPR_DECODING" (defs ++ [ Str e; Str d; Str e; Str d ])
      = count_key "ENABLE_GPR_DECODING" defs + 2.
Proof.
  intros Hd.
  destruct (resolve_succeeds s st defs Hd)
    as (e & d & st1 & Hrun1 & Hd1 & _ & He & Hdd).
  destruct (resolve_succeeds s st1 _ Hd1)
    as (e' & d' & st2 & Hrun2 & Hd2 & _ & He' & Hdd').
  assert (e' = e) as -> by (destruct He as [[-> ?] | [-> ?]];
                            destruct He' as [[-> ?] | [-> ?]]; tauto).
  assert (d' = d) as -> by (destruct Hdd as [[-> ?] | [-> ?]];
                            destruct Hdd' as [[-> ?] | [-> ?]]; tauto).
  exists e, d, st2. split; [unfold bind; now rewrite Hrun1 |].
  split; [now rewrite Hd2, <- app_assoc |].
  rewrite !count_key_app.
  destruct He as [[-> _] | [-> _]]; destruct Hdd as [[-> _] | [-> _]];
    split; reflexivity.
Qed.

Lemma resolve_twice_witness :
  state_defines catalog_state = Some baseline_defines /\
  exists e d st',
    (resolve (mkNamespace "all") ;; resolve (mkNamespace "all")) catalog_state
      = (Return tt, st') /\
    state_defines st'
      = Some (baseline_defines ++ [ Str e; Str d; Str e; Str d ]) /\
    count_key "ENABLE_GPR_ENCODING"
        (baseline_defines ++ [ Str e; Str d; Str e; Str d ])
      = count_key "ENABLE_GPR_ENCODING" baseline_defines + 2 /\
    count_key "ENABLE_GPR_DECODING"
        (baseline_defines ++ [ Str e; Str d; Str e; Str d ])
      = count_key "ENABLE_GPR_DECODING" baseline_defines + 2.
Proof.
  split; [reflexivity |].
  apply (resolve_twice "all" catalog_state baseline_defines). reflexivity.
Defined.

(** X8. The two if-statements are independent: each reads only
    [args.modules], so running lines 187-190 before lines 182-185 appends
    the same two defines, in the other order. *)
Theorem resolve_order (s : string) (st : state) (defs : list value) :
  state_defines st = Some defs ->
  exists e d st1 st2,
    (resolve_encoding (mkNamespace s) ;; resolve_decoding (mkNamespace s)) st
      = (Return tt, st1) /\
    (resolve_decoding (mkNamespace s) ;; resolve_encoding (mkNamespace s)) st
      = (Return tt, st2) /\
    state_defines st1 = Some (defs ++ [ Str e; Str d ]) /\
    state_defines st2 = Some (defs ++ [ Str d; Str e ]).
Proof.
  intros Hd. unfold state_defines in Hd.
  destruct (gyp_build_object st) as [o |] eqn:Eo; [| discriminate].
  apply descriptor_defines_shape in Hd.
  destruct Hd as (entries & tfields & rest & -> & Ht & Hd).
  unfold resolve_encoding, resolve_decoding. simpl.
  destruct (String.eqb s "gpr_encoding" || String.eqb s "all");
  destruct (String.eqb s "gpr_decoding" || String.eqb s "all");
  (eexists; eexists; eexists; eexists;
   split; [eapply defines_append_twice; eassumption |];
   split; [eapply defines_append_twice; eassumption |];
   split; apply with_defines_defines).
Qed.

Lemma resolve_order_witness :
  state_defines catalog_state = Some baseline_defines /\
  exists e d st1 st2,
    (resolve_encoding (mkNamespace "gpr_encoding") ;;
     resolve_decoding (mkNamespace "gpr_encoding")) catalog_state
      = (Return tt, st1) /\
    (resolve_decoding (mkNamespace "gpr_encoding") ;;
     resolve_encoding (mkNamespace "gpr_encoding")) catalog_state
      = (Return tt, st2) /\
    state_defines st1 = Some (baseline_defines ++ [ Str e; Str d ]) /\
    state_defines st2 = Some (baseline_defines ++ [ Str d; Str e ]).
Proof.
  split; [reflexivity |].
  apply (resolve_order "gpr_encoding" catalog_state baseline_defines).
  reflexivity.
Defined.

(** ** The boundary and the whole run, for every command line *)




(** X11. The selection can be read back from the descriptor: two runs on
    valid selections that end with the same [gyp_build_object], from
    whatever states, were runs on the same selection. *)
Theorem selection_recoverable (s1 s2 : string) (st1 st2 : state) :
  valid_selection s1 ->
  valid_selection s2 ->
  gyp_build_object (snd (script (Some s1) st1))
    = gyp_build_object (snd (script (Some s2) st2)) ->
  s1 = s2.
Proof.
  intros H1 H2.
  apply valid_selection_cases in H1. apply valid_selection_cases in H2.
  destruct H1 as [-> | [-> | ->]]; destruct H2 as [-> | [-> | ->]];
    rewrite ?script_all, ?script_gpr_encoding, ?script_gpr_decoding;
    simpl; intros H; try reflexivity;
    apply (f_equal (fun o => match o with
                             | Some v => descriptor_defines v
                             | None => None
                             end)) in H;
    vm_compute in H; discriminate H.
Qed.

Lemma selection_recoverable_witness :
  valid_selection "gpr_decoding" /\
  gyp_build_object (snd (script (Some "gpr_decoding") initial_state))
    = gyp_build_object (snd (script (Some "gpr_decoding") catalog_state)) /\
  "gpr_decoding" = "gpr_decoding".
Proof.
  assert (H : valid_selection "gpr_decoding")
    by (unfold valid_selection; simpl; tauto).
  split; [exact H |]. split; [reflexivity |].
  apply (selection_recoverable "gpr_decoding" "gpr_decoding"
           initial_state catalog_state H H).
  reflexivity.
Defined.

(** ** The catalog in the printed descriptor *)

Lemma NoDup_map_Str names : NoDup names -> NoDup (map Str names).
Proof.
  induction 1 as [| n names Hn _ IH]; simpl; constructor; [| exact IH].
  intros Hin. apply in_map_iff in Hin. destruct Hin as (m & Hm & Hin).
  injection Hm as ->. contradiction.
Qed.

Lemma sources_NoDup : NoDup sources.
Proof.
  pose (names := flat_map (fun v => match v with
                                    | Str n => [n]
                                    | _ => []
                                    end) sources).
  assert (Hs : sources = map Str names) by (vm_compute; reflexivity).
  assert (Hn : nodup string_dec names = names) by (vm_compute; reflexivity).
  rewrite Hs. apply NoDup_map_Str. rewrite <- Hn. apply NoDup_nodup.
Qed.

Lemma sources_paths :
  Forall (fun v => exists name,
            v = Str name /\ String.prefix "./dng_" name = true) sources.
Proof.
  assert (H : forallb (fun v => match v with
                                | Str n => String.prefix "./dng_" n
                                | _ => false
                                end) sources = true)
    by (vm_compute; reflexivity).
  apply Forall_forall. intros v Hin.
  apply (proj1 (forallb_forall _ _) H) in Hin.
  destruct v as [n | l | d]; try discriminate. exists n. auto.
Qed.

(** X12. For every accepted command line the printed descriptor lists no
    source file twice, and every entry of its sources is a string that
    begins with [./dng_]. *)
Theorem printed_sources_distinct (cmdline : option string) (st0 : state) :
  accepted cmdline ->
  exists o srcs,
    script cmdline st0 = (Return tt, printed st0 o) /\
    target_field "sources" o = Return (Lst srcs) /\
    NoDup srcs /\
    Forall (fun v => exists name,
              v = Str name /\ String.prefix "./dng_" name = true) srcs.
Proof.
  intros H.
  destruct (script_accepted cmdline st0 H) as (e & d & Hrun & _).
  exists (descriptor_with (baseline_defines ++ [ Str e; Str d ])), sources.
  split; [exact Hrun |]. split; [reflexivity |].
  split; [apply sources_NoDup | apply sources_paths].
Qed.

Lemma printed_sources_distinct_witness :
  accepted None /\
  exists o srcs,
    script None initial_state = (Return tt, printed initial_state o) /\
    target_field "sources" o = Return (Lst srcs) /\
    NoDup srcs /\
    Forall (fun v => exists name,
              v = Str name /\ String.prefix "./dng_" name = true) srcs.
Proof.
  split; [exact I |].
  exact (printed_sources_distinct None initial_state I).
Defined.

Lemma count_key_absent k names :
  ~ In k (map define_key names) -> count_key k (map Str names) = 0.
Proof.
  induction names as [| n names IH]; simpl; [reflexivity |].
  intros Hin. unfold count_key in *. simpl.
  destruct (String.eqb (define_key n) k) eqn:E.
  - apply String.eqb_eq in E. tauto.
  - apply IH. tauto.
Qed.

Lemma count_key_at_most_one names :
  NoDup (map define_key names) -> forall k, count_key k (map Str names) <= 1.
Proof.
  induction names as [| n names IH]; simpl; intros Hnd k.
  - unfold count_key. simpl. lia.
  - inversion Hnd as [| ? ? Hnotin Hnd']; subst.
    unfold count_key. simpl.
    destruct (String.eqb (define_key n) k) eqn:E.
    + apply String.eqb_eq in E. subst k. simpl.
      fold (count_key (define_key n) (map Str names)).
      rewrite (count_key_absent _ _ Hnotin). lia.
    + apply IH. exact Hnd'.
Qed.

(** X13. For every accepted command line no key at all is defined twice in
    the printed descriptor: for each key, at most one of its defines
    carries it, so no define shadows another. *)
Theorem printed_defines_keys_distinct (cmdline : option string) (st0 : state) :
  accepted cmdline ->
  exists o defs,
    script cmdline st0 = (Return tt, printed st0 o) /\
    descriptor_defines o = Some defs /\
    forall k, count_key k defs <= 1.
Proof.
  intros H.
  destruct (script_accepted cmdline st0 H) as (e & d & Hrun & He & Hd & _).
  exists (descriptor_with (baseline_defines ++ [ Str e; Str d ])),
         (baseline_defines ++ [ Str e; Str d ]).
  split; [exact Hrun |]. split; [reflexivity |].
  change (baseline_defines ++ [ Str e; Str d ])
    with (map Str [ "<@(default_defines)"; "qDNGXMPFiles=0";
                    "qDNGXMPDocOps=0"; e; d ]).
  apply count_key_at_most_one.
  destruct He as [-> | ->]; destruct Hd as [-> | ->]; simpl;
    repeat (constructor; [simpl; intuition discriminate |]); constructor.
Qed.

Lemma printed_defines_keys_distinct_witness :
  accepted (Some "gpr_encoding") /\
  exists o defs,
    script (Some "gpr_encoding") initial_state
      = (Return tt, printed initial_state o) /\
    descriptor_defines o = Some defs /\
    forall k, count_key k defs <= 1.
Proof.
  assert (H : accepted (Some "gpr_encoding"))
    by (unfold accepted, valid_selection; simpl; tauto).
  split; [exact H |].
  exact (printed_defines_keys_distinct (Some "gpr_encoding") initial_state H).
Defined.
